(** * Smart traffic light system: a shallow embedding of
      [smart_traffic_system.c] and the properties of its control core.

    The C program keeps one [TrafficSystem] struct, a function-local
    [static time_t lastChange] inside [controlLights], and reads the clock
    with [time(NULL)].  Here the struct is a record, the static variable is
    threaded explicitly next to it, and every clock reading is an explicit
    argument.  Console output ([printf]) is kept apart from the state. *)

From Stdlib Require Import ZArith List Bool Lia String.
Import ListNotations.
Local Open Scope Z_scope.

(** ** Machine integers

    [int] is 32 bits and [time_t] 64 bits, both signed.  Values are kept in
    [Z]; every arithmetic result of the source is wrapped into its type. *)

Module MachineInt.

Definition wrap (bits z : Z) : Z :=
  (z + 2 ^ (bits - 1)) mod 2 ^ bits - 2 ^ (bits - 1).

Definition INT_MIN : Z := -2147483648.
Definition INT_MAX : Z := 2147483647.

Definition int_add (a b : Z) : Z := wrap 32 (a + b).
Definition int_sub (a b : Z) : Z := wrap 32 (a - b).

(** [currentTime - lastChange], computed in [time_t]. *)
Definition time_sub (a b : Z) : Z := wrap 64 (a - b).

(** The conversion of a [time_t] to [int] in [int elapsed = ...]. *)
Definition int_of_time (t : Z) : Z := wrap 32 t.

End MachineInt.
Import MachineInt.

(** ** Data model *)

(** [typedef enum {NORTH, SOUTH, EAST, WEST} Direction;]  The enumerators
    are the array indices 0, 1, 2, 3. *)
Inductive Direction : Set := NORTH | SOUTH | EAST | WEST.

(** [typedef enum {RED, GREEN, YELLOW} LightState;] *)
Inductive LightState : Set := RED | GREEN | YELLOW.

Definition Direction_eqb (a b : Direction) : bool :=
  match a, b with
  | NORTH, NORTH | SOUTH, SOUTH | EAST, EAST | WEST, WEST => true
  | _, _ => false
  end.

Definition LightState_eqb (a b : LightState) : bool :=
  match a, b with
  | RED, RED | GREEN, GREEN | YELLOW, YELLOW => true
  | _, _ => false
  end.

(** The values taken by [i] in [for (int i = 0; i < 4; i++)], in order. *)
Definition indices : list Direction := [NORTH; SOUTH; EAST; WEST].

Record TrafficLight : Set := mkTrafficLight {
  state : LightState;
  duration : Z;
  direction : Direction
}.

(** The sensor's [direction] field is named [sensorDirection] here, the
    record projections of one file sharing a name space. *)
Record VehicleSensor : Set := mkVehicleSensor {
  vehicleDetected : bool;
  sensorDirection : Direction;
  detectionTime : Z
}.

(** A C array [T a[4]], indexed by the four directions. *)
Record array4 (A : Type) : Type := mkArray4 {
  elt0 : A; elt1 : A; elt2 : A; elt3 : A
}.
Arguments mkArray4 {A} _ _ _ _.
Arguments elt0 {A} _.
Arguments elt1 {A} _.
Arguments elt2 {A} _.
Arguments elt3 {A} _.

Definition get {A : Type} (a : array4 A) (i : Direction) : A :=
  match i with
  | NORTH => elt0 a | SOUTH => elt1 a | EAST => elt2 a | WEST => elt3 a
  end.

Definition set {A : Type} (a : array4 A) (i : Direction) (x : A) : array4 A :=
  match i with
  | NORTH => mkArray4 x (elt1 a) (elt2 a) (elt3 a)
  | SOUTH => mkArray4 (elt0 a) x (elt2 a) (elt3 a)
  | EAST => mkArray4 (elt0 a) (elt1 a) x (elt3 a)
  | WEST => mkArray4 (elt0 a) (elt1 a) (elt2 a) x
  end.

Record TrafficSystem : Type := mkTrafficSystem {
  lights : array4 TrafficLight;
  sensors : array4 VehicleSensor;
  greenDuration : Z;
  yellowDuration : Z;
  minGreenTime : Z;
  maxGreenTime : Z;
  emergencyMode : bool
}.

(** *** Field writes *)

Definition with_lights (s : TrafficSystem) (l : array4 TrafficLight) :=
  mkTrafficSystem l (sensors s) (greenDuration s) (yellowDuration s)
    (minGreenTime s) (maxGreenTime s) (emergencyMode s).

Definition with_sensors (s : TrafficSystem) (v : array4 VehicleSensor) :=
  mkTrafficSystem (lights s) v (greenDuration s) (yellowDuration s)
    (minGreenTime s) (maxGreenTime s) (emergencyMode s).

(** [system->emergencyMode = b;] *)
Definition set_emergencyMode (s : TrafficSystem) (b : bool) :=
  mkTrafficSystem (lights s) (sensors s) (greenDuration s) (yellowDuration s)
    (minGreenTime s) (maxGreenTime s) b.

(** [system->lights[i].state = v;] *)
Definition set_state (s : TrafficSystem) (i : Direction) (v : LightState) :=
  let l := get (lights s) i in
  with_lights s (set (lights s) i (mkTrafficLight v (duration l) (direction l))).

(** [system->lights[i].duration = n;] *)
Definition set_duration (s : TrafficSystem) (i : Direction) (n : Z) :=
  let l := get (lights s) i in
  with_lights s (set (lights s) i (mkTrafficLight (state l) n (direction l))).

(** [system->lights[i].direction = d;] *)
Definition set_direction (s : TrafficSystem) (i d : Direction) :=
  let l := get (lights s) i in
  with_lights s (set (lights s) i (mkTrafficLight (state l) (duration l) d)).

(** [system->sensors[i].vehicleDetected = b;] *)
Definition set_vehicleDetected (s : TrafficSystem) (i : Direction) (b : bool) :=
  let v := get (sensors s) i in
  with_sensors s
    (set (sensors s) i (mkVehicleSensor b (sensorDirection v) (detectionTime v))).

(** [system->sensors[i].direction = d;] *)
Definition set_sensorDirection (s : TrafficSystem) (i d : Direction) :=
  let v := get (sensors s) i in
  with_sensors s
    (set (sensors s) i (mkVehicleSensor (vehicleDetected v) d (detectionTime v))).

(** [system->sensors[i].detectionTime = t;] *)
Definition set_detectionTime (s : TrafficSystem) (i : Direction) (t : Z) :=
  let v := get (sensors s) i in
  with_sensors s
    (set (sensors s) i (mkVehicleSensor (vehicleDetected v) (sensorDirection v) t)).

(** Shorthands for reading one light or sensor. *)
Definition light (s : TrafficSystem) (i : Direction) : TrafficLight :=
  get (lights s) i.
Definition sensor (s : TrafficSystem) (i : Direction) : VehicleSensor :=
  get (sensors s) i.

(** ** Operations *)

(** [initializeSystem] writes every field of the struct it is handed. *)
Definition initializeSystem (system : TrafficSystem) : TrafficSystem :=
  let system :=
    fold_left
      (fun s i => set_direction (set_duration (set_state s i RED) i 0) i i)
      indices system in
  let system :=
    fold_left
      (fun s i =>
         set_detectionTime
           (set_sensorDirection (set_vehicleDetected s i false) i i) i 0)
      indices system in
  mkTrafficSystem (lights system) (sensors system) 30 5 10 60 false.

(** [updateSensors]; [now] is the value returned by [time(NULL)]. *)
Definition updateSensors (now : Z) (system : TrafficSystem)
    (dir : Direction) (detected : bool) : TrafficSystem :=
  let system := set_vehicleDetected system dir detected in
  if detected then set_detectionTime system dir now else system.

Definition calculateDensity (system : TrafficSystem)
    (primary secondary : Direction) : Z :=
  let density := 0 in
  let density :=
    if vehicleDetected (sensor system primary)
    then int_add density 3 else density in
  let density :=
    if vehicleDetected (sensor system secondary)
    then int_add density 3 else density in
  density.

(** One round of the limiting loop of [adjustTiming]. *)
Definition limit_duration (s : TrafficSystem) (i : Direction) : TrafficSystem :=
  let s :=
    if duration (light s i) <? minGreenTime s
    then set_duration s i (minGreenTime s) else s in
  if maxGreenTime s <? duration (light s i)
  then set_duration s i (maxGreenTime s) else s.

Definition adjustTiming (system : TrafficSystem) : TrafficSystem :=
  let nsDensity := calculateDensity system NORTH SOUTH in
  let ewDensity := calculateDensity system EAST WEST in
  let baseTime := greenDuration system in
  let system :=
    if int_add ewDensity 4 <? nsDensity then
      let s := set_duration system NORTH (int_add baseTime 15) in
      let s := set_duration s SOUTH (int_add baseTime 15) in
      let s := set_duration s EAST (int_sub baseTime 10) in
      set_duration s WEST (int_sub baseTime 10)
    else if int_add nsDensity 4 <? ewDensity then
      let s := set_duration system EAST (int_add baseTime 15) in
      let s := set_duration s WEST (int_add baseTime 15) in
      let s := set_duration s NORTH (int_sub baseTime 10) in
      set_duration s SOUTH (int_sub baseTime 10)
    else
      fold_left (fun s i => set_duration s i baseTime) indices system in
  fold_left limit_duration indices system.

(** The search loop of [controlLights]: the first index whose light is
    GREEN.  [None] stands for the source's [activeGreen = -1]. *)
Definition findActiveGreen (system : TrafficSystem) : option Direction :=
  find (fun i => LightState_eqb (state (light system i)) GREEN) indices.

(** The controller's state: the struct and the static [lastChange]. *)
Definition Controller : Type := TrafficSystem * Z.

(** [activeGreen == d] for an enumerator [d]. *)
Definition activeGreen_is (activeGreen : option Direction) (d : Direction) : bool :=
  match activeGreen with
  | Some g => Direction_eqb g d
  | None => false
  end.

(** [controlLights]; [currentTime] is the value returned by [time(NULL)]. *)
Definition controlLights (currentTime : Z) (c : Controller) : Controller :=
  let '(system, lastChange) := c in
  let elapsed := int_of_time (time_sub currentTime lastChange) in
  let activeGreen := findActiveGreen system in
  if emergencyMode system then
    let s := fold_left (fun s i => set_state s i RED) indices system in
    let s := set_state s NORTH GREEN in
    let s := set_state s SOUTH GREEN in
    (s, lastChange)
  else
    let due :=
      match activeGreen with
      | None => true
      | Some g => duration (light system g) <=? elapsed
      end in
    if due then
      (* the code after the "switch to yellow" block *)
      let next_green :=
        let s :=
          if activeGreen_is activeGreen NORTH || activeGreen_is activeGreen SOUTH
          then
            let s := set_state system EAST GREEN in
            let s := set_state s WEST GREEN in
            let s := set_state s NORTH RED in
            set_state s SOUTH RED
          else
            let s := set_state system NORTH GREEN in
            let s := set_state s SOUTH GREEN in
            let s := set_state s EAST RED in
            set_state s WEST RED in
        (adjustTiming s, currentTime) in
      match activeGreen with
      | Some g =>
          if LightState_eqb (state (light system g)) GREEN then
            let s := set_state system g YELLOW in
            let s :=
              set_state s (if Direction_eqb g NORTH then SOUTH else g) YELLOW in
            (s, currentTime)
          else next_green
      | None => next_green
      end
    else (system, lastChange).

(** What [controlLights] prints. *)
Definition controlLights_output (system : TrafficSystem) : list string :=
  if emergencyMode system
  then ["EMERGENCY MODE: All directions RED except North/South GREEN"%string]
  else [].

(** ** The program around the core

    [main] runs [initializeSystem] once; afterwards the control loop calls
    [controlLights], the sensor thread calls [updateSensors] and [main]
    writes the emergency flag.  An [Event] is one such whole operation. *)

Inductive Event : Type :=
| Tick (now : Z)
| Sense (now : Z) (dir : Direction) (detected : bool)
| SetEmergency (on : bool).

Definition step (c : Controller) (e : Event) : Controller :=
  match e with
  | Tick now => controlLights now c
  | Sense now dir detected => (updateSensors now (fst c) dir detected, snd c)
  | SetEmergency on => (set_emergencyMode (fst c) on, snd c)
  end.

(** The controller state after [initializeSystem] on the struct [memory]
    (whatever it held) followed by the events, the static [lastChange]
    starting at 0. *)
Definition run (memory : TrafficSystem) (events : list Event) : Controller :=
  fold_left step events (initializeSystem memory, 0).

(** *** Views used in the statements *)

(** The four light states, in the order North, South, East, West. *)
Definition states (s : TrafficSystem) :
    LightState * LightState * LightState * LightState :=
  (state (light s NORTH), state (light s SOUTH),
   state (light s EAST), state (light s WEST)).

Definition durations (s : TrafficSystem) : Z * Z * Z * Z :=
  (duration (light s NORTH), duration (light s SOUTH),
   duration (light s EAST), duration (light s WEST)).

Definition NS_GREEN := (GREEN, GREEN, RED, RED).
Definition NS_YELLOW := (YELLOW, YELLOW, RED, RED).
Definition EW_GREEN := (RED, RED, GREEN, GREEN).
Definition EW_YELLOW := (RED, RED, YELLOW, YELLOW).

(** [elapsed] as [controlLights] computes it. *)
Definition elapsed (currentTime lastChange : Z) : Z :=
  int_of_time (time_sub currentTime lastChange).

(** The Configuration invariant of the data model. *)
Definition config_valid (s : TrafficSystem) : Prop :=
  0 < minGreenTime s /\ minGreenTime s <= greenDuration s
  /\ greenDuration s <= maxGreenTime s.

(** The system with the four light states replaced, everything else kept. *)
Definition with_states (s : TrafficSystem)
    (p : LightState * LightState * LightState * LightState) : TrafficSystem :=
  let '(n, so, e, w) := p in
  set_state (set_state (set_state (set_state s NORTH n) SOUTH so) EAST e) WEST w.

(** The system with the four durations replaced, everything else kept. *)
Definition with_durations (s : TrafficSystem) (f : Direction -> Z) :
    TrafficSystem :=
  fold_left (fun s i => set_duration s i (f i)) indices s.

(** ** The timing policy as the specification words it *)

Module TimingPolicy.

Definition presence (s : TrafficSystem) (d : Direction) : Z :=
  if vehicleDetected (sensor s d) then 1 else 0.

Definition densityNS (s : TrafficSystem) : Z :=
  3 * presence s NORTH + 3 * presence s SOUTH.

Definition densityEW (s : TrafficSystem) : Z :=
  3 * presence s EAST + 3 * presence s WEST.

Definition onNS (d : Direction) : bool :=
  match d with NORTH | SOUTH => true | EAST | WEST => false end.

(** Step 2: the duration before clamping. *)
Definition rawDuration (s : TrafficSystem) (d : Direction) : Z :=
  let base := greenDuration s in
  if densityEW s + 4 <? densityNS s then
    if onNS d then base + 15 else base - 10
  else if densityNS s + 4 <? densityEW s then
    if onNS d then base - 10 else base + 15
  else base.

(** Step 3: clamping into [lo, hi]. *)
Definition clamp (lo hi x : Z) : Z :=
  if x <? lo then lo else if hi <? x then hi else x.

Definition computeDurations (s : TrafficSystem) (d : Direction) : Z :=
  clamp (minGreenTime s) (maxGreenTime s) (rawDuration s d).

End TimingPolicy.

(** ** Closed forms of the timing code *)

(** The limiting loop body, as one expression on the duration. *)
Definition limit (lo hi x : Z) : Z :=
  let x := if x <? lo then lo else x in
  if hi <? x then hi else x.

(** The durations [adjustTiming] assigns before its limiting loop. *)
Definition assigned (s : TrafficSystem) (d : Direction) : Z :=
  let nsDensity := calculateDensity s NORTH SOUTH in
  let ewDensity := calculateDensity s EAST WEST in
  let baseTime := greenDuration s in
  if int_add ewDensity 4 <? nsDensity then
    if TimingPolicy.onNS d then int_add baseTime 15 else int_sub baseTime 10
  else if int_add nsDensity 4 <? ewDensity then
    if TimingPolicy.onNS d then int_sub baseTime 10 else int_add baseTime 15
  else baseTime.

(** ** The invariant of the running program *)

(** The four configuration fields, in declaration order. *)
Definition config (s : TrafficSystem) : Z * Z * Z * Z :=
  (greenDuration s, yellowDuration s, minGreenTime s, maxGreenTime s).

Definition ALL_RED := (RED, RED, RED, RED).

Record Inv (s : TrafficSystem) : Prop := mkInv {
  inv_states :
    states s = ALL_RED \/ states s = NS_GREEN \/ states s = NS_YELLOW;
  inv_NS : duration (light s NORTH) = duration (light s SOUTH);
  inv_EW : duration (light s EAST) = duration (light s WEST);
  inv_config : config s = (30, 5, 10, 60)
}.

(** ** Conditions used in the statements *)

(** The search loop, read off the four light states. *)
Definition firstGreen (p : LightState * LightState * LightState * LightState) :
    option Direction :=
  let '(n, so, e, w) := p in
  if LightState_eqb n GREEN then Some NORTH
  else if LightState_eqb so GREEN then Some SOUTH
  else if LightState_eqb e GREEN then Some EAST
  else if LightState_eqb w GREEN then Some WEST
  else None.

(** Events that leave the emergency flag set. *)
Definition keeps_emergency (e : Event) : bool :=
  match e with
  | SetEmergency false => false
  | _ => true
  end.

(** The first call of [controlLights] is a Green-to-Yellow switch. *)
Definition turns_yellow (now : Z) (c : Controller) : bool :=
  negb (emergencyMode (fst c))
  && match findActiveGreen (fst c) with
     | Some g => duration (light (fst c) g) <=? elapsed now (snd c)
     | None => false
     end.


(** ** Console output

    A call of [printf] is recorded with its format string, written as the
    source literal (escape sequences as typed there), and its arguments. *)

Inductive Arg : Type :=
| Str (s : string)
| Int (n : Z).

Record Printf : Type := mkPrintf {
  format : string;
  arguments : list Arg
}.

(** [state == GREEN ? "GREEN" : state == YELLOW ? "YELLOW" : "RED"] *)
Definition stateName (st : LightState) : string :=
  if LightState_eqb st GREEN then "GREEN"%string
  else if LightState_eqb st YELLOW then "YELLOW"%string
  else "RED"%string.

(** [displayStatus]: its six calls of [printf], in order. *)
Definition displayStatus (system : TrafficSystem) : list Printf :=
  [ mkPrintf "\n--- Traffic Light Status ---\n" [];
    mkPrintf "North: %s\tSouth: %s\n"
      [Str (stateName (state (light system NORTH)));
       Str (stateName (state (light system SOUTH)))];
    mkPrintf "East:  %s\tWest:  %s\n"
      [Str (stateName (state (light system EAST)));
       Str (stateName (state (light system WEST)))];
    mkPrintf "Timing: N/S:%ds, E/W:%ds\n"
      [Int (duration (light system NORTH));
       Int (duration (light system EAST))];
    mkPrintf "Emergency Mode: %s\n"
      [Str (if emergencyMode system then "ON" else "OFF")];
    mkPrintf "---------------------------\n" [] ].

(** The [printf] of the emergency branch of [controlLights]. *)
Definition emergencyNotice : Printf :=
  mkPrintf "EMERGENCY MODE: All directions RED except North/South GREEN\n" [].

Definition controlLights_printf (system : TrafficSystem) : list Printf :=
  if emergencyMode system then [emergencyNotice] else [].

(** ** The two threads

    [rand()] results and clock readings are inputs.  [rand()] is never
    negative, and [%] is the remainder of the truncating division. *)

(** One round of the [for] loop of [sensorThread]: [rands] and [nows] hold,
    per index, the value of [rand()] and the clock reading of that turn. *)
Definition sensorThread_round (rands nows : array4 Z)
    (system : TrafficSystem) : TrafficSystem :=
  fold_left
    (fun s i =>
       let detected := Z.rem (get rands i) 5 =? 0 in
       updateSensors (get nows i) s i detected)
    indices system.

(** [system.yellowDuration = y;]  No function of the program performs this
    write; it serves to vary the field in the statements. *)
Definition set_yellowDuration (s : TrafficSystem) (y : Z) :=
  mkTrafficSystem (lights s) (sensors s) (greenDuration s) y
    (minGreenTime s) (maxGreenTime s) (emergencyMode s).

(** The steps of the program after [initializeSystem], each taken as a
    whole: the calls in the loop of [main], its two writes of the emergency
    flag (the first with its [printf]), and the calls of [updateSensors] by
    [sensorThread]. *)
Inductive Action : Type :=
| Control (now : Z)
| Display
| Raise
| Clear
| Update (now : Z) (dir : Direction) (detected : bool).

Definition next (c : Controller) (a : Action) : Controller :=
  match a with
  | Control now => controlLights now c
  | Display => c
  | Raise => (set_emergencyMode (fst c) true, snd c)
  | Clear => (set_emergencyMode (fst c) false, snd c)
  | Update now dir detected => (updateSensors now (fst c) dir detected, snd c)
  end.

Definition emit (c : Controller) (a : Action) : list Printf :=
  match a with
  | Control _ => controlLights_printf (fst c)
  | Display => displayStatus (fst c)
  | Raise => [mkPrintf "\n!!! EMERGENCY VEHICLE DETECTED !!!\n" []]
  | Clear => []
  | Update _ _ _ => []
  end.

Definition execute (c : Controller) (l : list Action) : Controller :=
  fold_left next l c.

(** What the actions print, in order. *)
Fixpoint stdout (c : Controller) (l : list Action) : list Printf :=
  match l with
  | [] => []
  | a :: l' => emit c a ++ stdout (next c a) l'
  end.

(** One pass of the [while] loop of [main]: [now] is the clock reading of
    [controlLights], [r] the value of [rand()]. *)
Definition main_iteration (now r : Z) : list Action :=
  [Control now; Display]
  ++ (if Z.rem r 20 =? 0 then [Raise; Clear] else []).

Definition main_thread (passes : list (Z * Z)) : list Action :=
  flat_map (fun '(now, r) => main_iteration now r) passes.

(** One round of [sensorThread] as actions. *)
Definition sensor_round (rands nows : array4 Z) : list Action :=
  map (fun i => Update (get nows i) i (Z.rem (get rands i) 5 =? 0)) indices.

Definition sensor_thread (rounds : list (array4 Z * array4 Z)) : list Action :=
  flat_map (fun '(rands, nows) => sensor_round rands nows) rounds.

(** [Interleaving a b l]: [l] runs the steps of [a] and of [b], each list in
    its own order. *)
Inductive Interleaving {A : Type} : list A -> list A -> list A -> Prop :=
| Interleaving_nil : Interleaving [] [] []
| Interleaving_left (x : A) (a b l : list A) :
    Interleaving a b l -> Interleaving (x :: a) b (x :: l)
| Interleaving_right (x : A) (a b l : list A) :
    Interleaving a b l -> Interleaving a (x :: b) (x :: l).

(** The state in which the threads start: the initialised struct and
    [lastChange = 0]. *)
Definition boot (memory : TrafficSystem) : Controller :=
  (initializeSystem memory, 0).

(** Every [controlLights] and [displayStatus] of [l], run from [c], reads
    the emergency flag as false. *)
Fixpoint calm (c : Controller) (l : list Action) : bool :=
  match l with
  | [] => true
  | a :: l' =>
      match a with
      | Control _ | Display => negb (emergencyMode (fst c))
      | _ => true
      end && calm (next c a) l'
  end.

(** The action as an [Event], if it touches the state. *)
Definition event_of (a : Action) : list Event :=
  match a with
  | Control now => [Tick now]
  | Display => []
  | Raise => [SetEmergency true]
  | Clear => [SetEmergency false]
  | Update now dir detected => [Sense now dir detected]
  end.

(** What the loop of [main] still has to do, and the flag it left behind. *)
Inductive Pending : bool -> list Action -> Prop :=
| Pending_pass (passes : list (Z * Z)) :
    Pending false (main_thread passes)
| Pending_display (r : Z) (passes : list (Z * Z)) :
    Pending false
      (Display :: (if Z.rem r 20 =? 0 then [Raise; Clear] else [])
         ++ main_thread passes)
| Pending_raise (passes : list (Z * Z)) :
    Pending false (Raise :: Clear :: main_thread passes)
| Pending_clear (passes : list (Z * Z)) :
    Pending true (Clear :: main_thread passes).

Definition is_Update (a : Action) : bool :=
  match a with
  | Update _ _ _ => true
  | _ => false
  end.

(** The durations that occur while the program runs. *)
Definition program_durations : list (Z * Z * Z * Z) :=
  [(0, 0, 0, 0); (30, 30, 30, 30); (45, 45, 20, 20); (20, 20, 45, 45)].

(** A line that does not report an emergency. *)
Definition unalarmed (p : Printf) : Prop :=
  p <> emergencyNotice
  /\ (format p = "Emergency Mode: %s\n"%string -> arguments p = [Str "OFF"]).

(** The controller with the emergency flag cleared. *)
Definition lower (c : Controller) : Controller :=
  (set_emergencyMode (fst c) false, snd c).

Definition is_flag_write (a : Action) : bool :=
  match a with
  | Raise | Clear => true
  | _ => false
  end.

(** The steps of [l] other than the writes of the emergency flag. *)
Definition without_emergency (l : list Action) : list Action :=
  filter (fun a => negb (is_flag_write a)) l.

(** ** Concrete systems *)

(** A struct whose bytes are all zero, as a concrete piece of memory. *)
Definition zeroed : TrafficSystem :=
  mkTrafficSystem
    (mkArray4 (mkTrafficLight RED 0 NORTH) (mkTrafficLight RED 0 NORTH)
              (mkTrafficLight RED 0 NORTH) (mkTrafficLight RED 0 NORTH))
    (mkArray4 (mkVehicleSensor false NORTH 0) (mkVehicleSensor false NORTH 0)
              (mkVehicleSensor false NORTH 0) (mkVehicleSensor false NORTH 0))
    0 0 0 0 false.

(** The system after start-up with vehicles detected at North and South. *)
Definition skewed : TrafficSystem :=
  updateSensors 7 (updateSensors 7 (initializeSystem zeroed) NORTH true)
    SOUTH true.

(** A struct with min 50 > base 30 > max 20, all lights red. *)
Definition misconfigured : TrafficSystem :=
  mkTrafficSystem (lights (initializeSystem zeroed))
    (sensors (initializeSystem zeroed)) 30 5 50 20 false.

(** Vehicles at North and South, and a configuration that satisfies
    0 < min <= base <= max with the base 7 below INT_MAX. *)
Definition near_overflow : TrafficSystem :=
  mkTrafficSystem (lights skewed) (sensors skewed)
    2147483640 5 1 2147483647 false.

(** East/West green with the flag raised: the start of the preemption
    scenario of the specification. *)
Definition preempted : TrafficSystem :=
  set_emergencyMode (with_states (fst (run zeroed [Tick 0])) EW_GREEN) true.


(** The running program once the first green phase has expired. *)
Definition after_first_green : Controller := run zeroed [Tick 0; Tick 30].

(** East/West green with the durations and [lastChange] of the first tick. *)
Definition east_west_green : TrafficSystem :=
  with_states (fst (run zeroed [Tick 0])) EW_GREEN.

(** The running program in its first green phase. *)
Definition first_green : Controller := run zeroed [Tick 0].

(** East/West yellow, the durations and [lastChange] of the first tick. *)
Definition east_west_yellow : TrafficSystem :=
  with_states (fst (run zeroed [Tick 0])) EW_YELLOW.

(** Two passes of [main], the first with [rand()] giving a multiple of 20,
    and one round of [sensorThread], interleaved. *)
Definition two_passes : list (Z * Z) := [(100, 40); (106, 7)].
Definition one_round : list (array4 Z * array4 Z) :=
  [(mkArray4 5 3 10 1, mkArray4 100 101 102 103)].
Definition sample_trace : list Action :=
  [Control 100; Update 100 NORTH true; Display; Raise;
   Update 101 SOUTH false; Update 102 EAST true; Clear;
   Control 106; Update 103 WEST false; Display].

(** * Proofs *)

Ltac destruct_system s :=
  destruct s as [[[? ? ?] [? ? ?] [? ? ?] [? ? ?]]
                 [[? ? ?] [? ? ?] [? ? ?] [? ? ?]] ? ? ? ? ?].

(** ** Machine integers *)

Lemma wrap32_small (z : Z) :
  INT_MIN <= z <= INT_MAX -> wrap 32 z = z.
Proof.
  unfold wrap, INT_MIN, INT_MAX. intros Hz.
  change (2 ^ (32 - 1)) with 2147483648.
  change (2 ^ 32) with 4294967296.
  rewrite Z.mod_small; lia.
Qed.

Lemma int_add_small (a b : Z) :
  INT_MIN <= a + b <= INT_MAX -> int_add a b = a + b.
Proof. apply wrap32_small. Qed.

Lemma int_sub_small (a b : Z) :
  INT_MIN <= a - b <= INT_MAX -> int_sub a b = a - b.
Proof. apply wrap32_small. Qed.

Lemma elapsed_same_instant (t : Z) : int_of_time (time_sub t t) = 0.
Proof. unfold time_sub. rewrite Z.sub_diag. reflexivity. Qed.

(** ** The timing code *)

Lemma limit_duration_eq (s : TrafficSystem) (i : Direction) :
  limit_duration s i
  = set_duration s i
      (limit (minGreenTime s) (maxGreenTime s) (duration (light s i))).
Proof.
  destruct_system s; destruct i;
    unfold limit_duration, limit, set_duration, with_lights, light;
    cbn -[Z.ltb];
    destruct (_ <? minGreenTime0); cbn -[Z.ltb];
    destruct (maxGreenTime0 <? _); reflexivity.
Qed.

Lemma limit_is_clamp (lo hi x : Z) :
  lo <= hi -> limit lo hi x = TimingPolicy.clamp lo hi x.
Proof.
  unfold limit, TimingPolicy.clamp. intros Hle.
  destruct (x <? lo) eqn:E1; destruct (hi <? x) eqn:E2;
    try destruct (hi <? lo) eqn:E3; lia.
Qed.

Lemma adjustTiming_eq (s : TrafficSystem) :
  adjustTiming s
  = with_durations s
      (fun d => limit (minGreenTime s) (maxGreenTime s) (assigned s d)).
Proof.
  unfold adjustTiming, with_durations, assigned.
  set (ns := calculateDensity s NORTH SOUTH).
  set (ew := calculateDensity s EAST WEST).
  destruct (int_add ew 4 <? ns); [| destruct (int_add ns 4 <? ew)];
    cbn [fold_left indices TimingPolicy.onNS];
    rewrite !limit_duration_eq; clearbody ns ew;
    destruct_system s; reflexivity.
Qed.

Lemma calculateDensity_spec (s : TrafficSystem) (p q : Direction) :
  calculateDensity s p q
  = 3 * TimingPolicy.presence s p + 3 * TimingPolicy.presence s q.
Proof.
  unfold calculateDensity, TimingPolicy.presence.
  destruct (vehicleDetected (sensor s p)), (vehicleDetected (sensor s q));
    reflexivity.
Qed.

Lemma initializeSystem_eq (memory : TrafficSystem) :
  initializeSystem memory
  = mkTrafficSystem
      (mkArray4 (mkTrafficLight RED 0 NORTH) (mkTrafficLight RED 0 SOUTH)
                (mkTrafficLight RED 0 EAST) (mkTrafficLight RED 0 WEST))
      (mkArray4 (mkVehicleSensor false NORTH 0) (mkVehicleSensor false SOUTH 0)
                (mkVehicleSensor false EAST 0) (mkVehicleSensor false WEST 0))
      30 5 10 60 false.
Proof. reflexivity. Qed.

Lemma light_with_durations (s : TrafficSystem) (f : Direction -> Z)
    (d : Direction) :
  light (with_durations s f) d
  = mkTrafficLight (state (light s d)) (f d) (direction (light s d)).
Proof. destruct_system s; destruct d; reflexivity. Qed.

Lemma light_adjustTiming (s : TrafficSystem) (d : Direction) :
  light (adjustTiming s) d
  = mkTrafficLight (state (light s d))
      (limit (minGreenTime s) (maxGreenTime s) (assigned s d))
      (direction (light s d)).
Proof. rewrite adjustTiming_eq. apply light_with_durations. Qed.

(** [adjustTiming] writes durations only. *)
Lemma adjustTiming_frame (s : TrafficSystem) :
  states (adjustTiming s) = states s
  /\ sensors (adjustTiming s) = sensors s
  /\ greenDuration (adjustTiming s) = greenDuration s
  /\ yellowDuration (adjustTiming s) = yellowDuration s
  /\ minGreenTime (adjustTiming s) = minGreenTime s
  /\ maxGreenTime (adjustTiming s) = maxGreenTime s
  /\ emergencyMode (adjustTiming s) = emergencyMode s.
Proof.
  rewrite adjustTiming_eq.
  generalize (fun d => limit (minGreenTime s) (maxGreenTime s) (assigned s d)).
  intros f. destruct_system s. repeat split.
Qed.

Lemma adjustTiming_paired (s : TrafficSystem) :
  duration (light (adjustTiming s) NORTH) = duration (light (adjustTiming s) SOUTH)
  /\ duration (light (adjustTiming s) EAST) = duration (light (adjustTiming s) WEST).
Proof. rewrite !light_adjustTiming. split; reflexivity. Qed.

Lemma findActiveGreen_Some (s : TrafficSystem) (g : Direction) :
  findActiveGreen s = Some g -> state (light s g) = GREEN.
Proof.
  unfold findActiveGreen. intros H. apply find_some in H as [_ H].
  destruct (state (light s g)); [discriminate | reflexivity | discriminate].
Qed.

(** *** The four behaviours of one call of [controlLights] *)

Lemma controlLights_emergency (now lastChange : Z) (s : TrafficSystem) :
  emergencyMode s = true ->
  controlLights now (s, lastChange) = (with_states s NS_GREEN, lastChange).
Proof.
  intros He. unfold controlLights. rewrite He.
  destruct_system s. reflexivity.
Qed.

Lemma controlLights_first_green (now lastChange : Z) (s : TrafficSystem) :
  emergencyMode s = false ->
  findActiveGreen s = None ->
  controlLights now (s, lastChange)
  = (adjustTiming (with_states s NS_GREEN), now).
Proof.
  intros He Hg. unfold controlLights. rewrite He, Hg. reflexivity.
Qed.

Lemma controlLights_hold (now lastChange : Z) (s : TrafficSystem)
    (g : Direction) :
  emergencyMode s = false ->
  findActiveGreen s = Some g ->
  elapsed now lastChange < duration (light s g) ->
  controlLights now (s, lastChange) = (s, lastChange).
Proof.
  intros He Hg Hlt. unfold controlLights. rewrite He, Hg.
  fold (elapsed now lastChange).
  destruct (duration (light s g) <=? elapsed now lastChange) eqn:E;
    [apply Z.leb_le in E; lia | reflexivity].
Qed.

Lemma controlLights_to_yellow (now lastChange : Z) (s : TrafficSystem)
    (g : Direction) :
  emergencyMode s = false ->
  findActiveGreen s = Some g ->
  duration (light s g) <= elapsed now lastChange ->
  controlLights now (s, lastChange)
  = (set_state (set_state s g YELLOW)
       (if Direction_eqb g NORTH then SOUTH else g) YELLOW, now).
Proof.
  intros He Hg Hle. unfold controlLights. rewrite He, Hg.
  fold (elapsed now lastChange).
  apply Z.leb_le in Hle. rewrite Hle.
  rewrite (findActiveGreen_Some s g Hg). reflexivity.
Qed.

(** ** The invariant is kept *)

Lemma with_states_view (s : TrafficSystem)
    (p : LightState * LightState * LightState * LightState) :
  states (with_states s p) = p
  /\ durations (with_states s p) = durations s
  /\ config (with_states s p) = config s
  /\ sensors (with_states s p) = sensors s
  /\ emergencyMode (with_states s p) = emergencyMode s.
Proof.
  destruct p as [[[n so] e] w]. destruct_system s. repeat split.
Qed.

Lemma durations_inj (s t : TrafficSystem) :
  durations s = durations t ->
  forall d, duration (light s d) = duration (light t d).
Proof.
  unfold durations. intros H d. injection H as H0 H1 H2 H3.
  destruct d; assumption.
Qed.

Lemma Inv_initializeSystem (memory : TrafficSystem) :
  Inv (initializeSystem memory).
Proof.
  rewrite initializeSystem_eq. split; try reflexivity. left. reflexivity.
Qed.

Lemma Inv_updateSensors (now : Z) (s : TrafficSystem) (dir : Direction)
    (detected : bool) :
  Inv s -> Inv (updateSensors now s dir detected).
Proof.
  intros [Hs Hn He Hc]. unfold updateSensors.
  destruct_system s; destruct detected, dir; split; assumption.
Qed.

Lemma Inv_set_emergencyMode (s : TrafficSystem) (b : bool) :
  Inv s -> Inv (set_emergencyMode s b).
Proof. intros [Hs Hn He Hc]. destruct_system s. split; assumption. Qed.

Lemma Inv_with_states_NS_GREEN (s : TrafficSystem) :
  Inv s -> Inv (with_states s NS_GREEN).
Proof.
  intros [Hs Hn He Hc].
  destruct (with_states_view s NS_GREEN) as (Vs & Vd & Vc & _).
  pose proof (durations_inj _ _ Vd) as Vd'.
  split.
  - right; left; exact Vs.
  - rewrite !Vd'. exact Hn.
  - rewrite !Vd'. exact He.
  - rewrite Vc. exact Hc.
Qed.

Lemma Inv_adjustTiming (s : TrafficSystem) : Inv s -> Inv (adjustTiming s).
Proof.
  intros [Hs Hn He Hc].
  destruct (adjustTiming_frame s) as (Fs & _ & Fg & Fy & Fmin & Fmax & _).
  destruct (adjustTiming_paired s) as [Pn Pe].
  split; try assumption.
  - rewrite Fs. exact Hs.
  - unfold config. rewrite Fg, Fy, Fmin, Fmax. exact Hc.
Qed.

(** In a state of the invariant the search loop finds NORTH or nothing. *)
Lemma Inv_findActiveGreen (s : TrafficSystem) :
  Inv s ->
  (findActiveGreen s = None /\ states s <> NS_GREEN)
  \/ (findActiveGreen s = Some NORTH /\ states s = NS_GREEN).
Proof.
  intros [Hs _ _ _]. unfold findActiveGreen, states, light in *.
  cbn [find indices get] in *.
  destruct Hs as [Hs | [Hs | Hs]]; injection Hs as H0 H1 H2 H3;
    rewrite H0, H1, H2, H3; cbn;
    [left | right | left]; split; (reflexivity || discriminate).
Qed.

Lemma Inv_controlLights (now : Z) (c : Controller) :
  Inv (fst c) -> Inv (fst (controlLights now c)).
Proof.
  destruct c as [s lc]. cbn [fst]. intros HI.
  destruct (emergencyMode s) eqn:Em.
  - rewrite controlLights_emergency by exact Em.
    apply Inv_with_states_NS_GREEN, HI.
  - destruct (Inv_findActiveGreen s HI) as [[Hg _] | [Hg Hs]].
    + rewrite controlLights_first_green by assumption.
      apply Inv_adjustTiming, Inv_with_states_NS_GREEN, HI.
    + destruct (Z_lt_le_dec (elapsed now lc) (duration (light s NORTH)))
        as [Hlt | Hle].
      * rewrite (controlLights_hold now lc s NORTH) by assumption. exact HI.
      * rewrite (controlLights_to_yellow now lc s NORTH) by assumption.
        destruct HI as [_ Hn He Hc]. cbn [fst Direction_eqb].
        unfold states in Hs. injection Hs as H0 H1 H2 H3.
        destruct_system s. cbn in *. subst.
        split; [right; right; reflexivity | reflexivity .. | exact Hc].
Qed.

Lemma Inv_step (c : Controller) (e : Event) :
  Inv (fst c) -> Inv (fst (step c e)).
Proof.
  destruct e as [now | now dir detected | on]; cbn [step fst].
  - apply Inv_controlLights.
  - apply Inv_updateSensors.
  - apply Inv_set_emergencyMode.
Qed.

Lemma Inv_fold (events : list Event) (c : Controller) :
  Inv (fst c) -> Inv (fst (fold_left step events c)).
Proof.
  revert c. induction events as [| e events IH]; intros c HI.
  - exact HI.
  - cbn [fold_left]. apply IH, Inv_step, HI.
Qed.

Lemma Inv_run (memory : TrafficSystem) (events : list Event) :
  Inv (fst (run memory events)).
Proof. apply Inv_fold, Inv_initializeSystem. Qed.

(** ** Sensor updates *)

(** C9. [updateSensors] is a total function (it always succeeds).  For every
    direction [dir] and boolean [detected] it sets
    [sensors[dir].vehicleDetected] to [detected]; [sensors[dir].detectionTime]
    becomes the current time when [detected] is true and keeps its value when
    [detected] is false; the sensors of the other directions, the lights, the
    configuration and the emergency flag are unchanged. *)
Theorem updateSensors_effect (now : Z) (s : TrafficSystem) (dir : Direction)
    (detected : bool) :
  let s' := updateSensors now s dir detected in
  vehicleDetected (sensor s' dir) = detected
  /\ detectionTime (sensor s' dir)
     = (if detected then now else detectionTime (sensor s dir))
  /\ sensorDirection (sensor s' dir) = sensorDirection (sensor s dir)
  /\ (forall d, sensor s' d
                = if Direction_eqb d dir then sensor s' dir else sensor s d)
  /\ lights s' = lights s
  /\ config s' = config s
  /\ emergencyMode s' = emergencyMode s.
Proof.
  unfold updateSensors. destruct_system s.
  destruct detected, dir; cbn; repeat split; intros d; destruct d; reflexivity.
Qed.

(** ** The timing policy *)

Section AdjustTiming.

Variable s : TrafficSystem.
Hypothesis limits_ordered : minGreenTime s <= maxGreenTime s.
Hypothesis base_in_range :
  INT_MIN + 10 <= greenDuration s <= INT_MAX - 15.

Lemma assigned_is_rawDuration (d : Direction) :
  assigned s d = TimingPolicy.rawDuration s d.
Proof.
  unfold assigned, TimingPolicy.rawDuration.
  unfold TimingPolicy.densityNS, TimingPolicy.densityEW.
  rewrite !calculateDensity_spec.
  assert (P : forall e, 0 <= TimingPolicy.presence s e <= 1).
  { intros e. unfold TimingPolicy.presence.
    destruct (vehicleDetected (sensor s e)); lia. }
  pose proof (P NORTH). pose proof (P SOUTH).
  pose proof (P EAST). pose proof (P WEST).
  unfold INT_MIN, INT_MAX in *.
  rewrite !int_add_small, !int_sub_small by (unfold INT_MIN, INT_MAX; lia).
  reflexivity.
Qed.

Lemma adjustTiming_duration (d : Direction) :
  duration (light (adjustTiming s) d) = TimingPolicy.computeDurations s d.
Proof.
  rewrite light_adjustTiming. cbn [duration].
  rewrite assigned_is_rawDuration.
  apply limit_is_clamp, limits_ordered.
Qed.

End AdjustTiming.

(** C6. For a sensor snapshot and a configuration with
    [minGreenTime <= maxGreenTime] (and a base time for which [base + 15] and
    [base - 10] are representable), [calculateDensity] gives each axis 3 per
    direction with a vehicle detected, and [adjustTiming] leaves in every
    light the duration of the specified policy: base+15 for North/South and
    base-10 for East/West when densityNS > densityEW + 4, the mirror image
    when densityEW > densityNS + 4, base otherwise, each clamped into
    [minGreenTime, maxGreenTime]; values already inside the interval, in
    particular the bounds themselves, pass through unchanged. *)
Theorem adjustTiming_computeDurations (s : TrafficSystem) :
  minGreenTime s <= maxGreenTime s ->
  INT_MIN + 10 <= greenDuration s <= INT_MAX - 15 ->
  calculateDensity s NORTH SOUTH = TimingPolicy.densityNS s
  /\ calculateDensity s EAST WEST = TimingPolicy.densityEW s
  /\ forall d : Direction,
       let result := duration (light (adjustTiming s) d) in
       let raw := TimingPolicy.rawDuration s d in
       result = TimingPolicy.computeDurations s d
       /\ minGreenTime s <= result <= maxGreenTime s
       /\ (raw < minGreenTime s -> result = minGreenTime s)
       /\ (maxGreenTime s < raw -> result = maxGreenTime s)
       /\ (minGreenTime s <= raw <= maxGreenTime s -> result = raw).
Proof.
  intros Hord Hbase.
  split; [apply calculateDensity_spec |].
  split; [apply calculateDensity_spec |].
  intros d result raw. subst result raw.
  rewrite (adjustTiming_duration s Hord Hbase d).
  unfold TimingPolicy.computeDurations, TimingPolicy.clamp.
  destruct (TimingPolicy.rawDuration s d <? minGreenTime s) eqn:E1;
    [| destruct (maxGreenTime s <? TimingPolicy.rawDuration s d) eqn:E2];
    repeat split; lia.
Qed.

Lemma adjustTiming_computeDurations_witness :
  minGreenTime skewed <= maxGreenTime skewed
  /\ INT_MIN + 10 <= greenDuration skewed <= INT_MAX - 15
  /\ calculateDensity skewed NORTH SOUTH = TimingPolicy.densityNS skewed
  /\ calculateDensity skewed EAST WEST = TimingPolicy.densityEW skewed
  /\ forall d : Direction,
       let result := duration (light (adjustTiming skewed) d) in
       let raw := TimingPolicy.rawDuration skewed d in
       result = TimingPolicy.computeDurations skewed d
       /\ minGreenTime skewed <= result <= maxGreenTime skewed
       /\ (raw < minGreenTime skewed -> result = minGreenTime skewed)
       /\ (maxGreenTime skewed < raw -> result = maxGreenTime skewed)
       /\ (minGreenTime skewed <= raw <= maxGreenTime skewed -> result = raw).
Proof.
  split; [cbn; lia |].
  split; [unfold INT_MIN, INT_MAX; cbn; lia |].
  apply (adjustTiming_computeDurations skewed);
    unfold INT_MIN, INT_MAX; cbn; lia.
Defined.

(** C6, as stated for every configuration, fails where [base + 15] is not
    representable as an [int]: with base 2147483640, minimum 1 and maximum
    2147483647 the sum wraps to a negative number, the lower limit applies,
    and North is left with 1 where the policy gives the maximum. *)
Lemma adjustTiming_base_overflow :
  config_valid near_overflow
  /\ duration (light (adjustTiming near_overflow) NORTH) = 1
  /\ TimingPolicy.computeDurations near_overflow NORTH = 2147483647
  /\ duration (light (adjustTiming near_overflow) NORTH)
     <> TimingPolicy.computeDurations near_overflow NORTH.
Proof.
  split.
  - unfold config_valid, near_overflow.
    cbn [minGreenTime greenDuration maxGreenTime]. lia.
  - split; [vm_compute; reflexivity |].
    split; [vm_compute; reflexivity |].
    vm_compute. intros H. discriminate H.
Qed.

(** The density-skew example of the specification: base 30, vehicles at
    North and South only, gives 45 to North/South and 20 to East/West. *)
Example adjustTiming_skewed :
  durations (adjustTiming skewed) = (45, 45, 20, 20).
Proof. reflexivity. Qed.

(** The tie-break example: vehicles at North and East give base to all. *)
Example adjustTiming_tie :
  durations
    (adjustTiming
       (updateSensors 7 (updateSensors 7 (initializeSystem zeroed) NORTH true)
          EAST true))
  = (30, 30, 30, 30).
Proof. reflexivity. Qed.

(** With the limits crossed the limiting loop leaves [maxGreenTime] in every
    light, whatever was assigned. *)
Lemma adjustTiming_limits_crossed (s : TrafficSystem) (d : Direction) :
  maxGreenTime s < minGreenTime s ->
  duration (light (adjustTiming s) d) = maxGreenTime s.
Proof.
  intros Hlt. rewrite light_adjustTiming. cbn [duration]. unfold limit.
  destruct (assigned s d <? minGreenTime s) eqn:E1.
  - destruct (maxGreenTime s <? minGreenTime s) eqn:E2; lia.
  - destruct (maxGreenTime s <? assigned s d) eqn:E2; lia.
Qed.

(** ** Invariants of every reachable state *)

(** C2. In every state reached from [initializeSystem] by any sequence of
    controller ticks, sensor updates and writes of the emergency flag, the
    North and South lights have the same state and the East and West lights
    have the same state. *)
Theorem axes_share_state (memory : TrafficSystem) (events : list Event) :
  let s := fst (run memory events) in
  state (light s NORTH) = state (light s SOUTH)
  /\ state (light s EAST) = state (light s WEST).
Proof.
  cbn zeta. destruct (Inv_run memory events) as [Hs _ _ _].
  unfold states, ALL_RED, NS_GREEN, NS_YELLOW in Hs.
  destruct Hs as [Hs | [Hs | Hs]]; injection Hs as H0 H1 H2 H3;
    unfold light, get; rewrite H0, H1, H2, H3; split; reflexivity.
Qed.

(** C10. After [initializeSystem] and after every later operation, hence
    after every controller tick, the North and South lights carry the same
    duration and the East and West lights carry the same duration. *)
Theorem axes_share_duration (memory : TrafficSystem) (events : list Event) :
  let s := fst (run memory events) in
  duration (light s NORTH) = duration (light s SOUTH)
  /\ duration (light s EAST) = duration (light s WEST).
Proof.
  cbn zeta. destruct (Inv_run memory events) as [_ Hn He _].
  split; assumption.
Qed.

(** East and West are never GREEN in the running program: after a yellow
    phase the search loop finds no green light, and the controller goes back
    to North/South. *)
Lemma run_East_West_red (memory : TrafficSystem) (events : list Event) :
  let s := fst (run memory events) in
  state (light s EAST) = RED /\ state (light s WEST) = RED.
Proof.
  cbn zeta. destruct (Inv_run memory events) as [Hs _ _ _].
  unfold states, ALL_RED, NS_GREEN, NS_YELLOW in Hs.
  destruct Hs as [Hs | [Hs | Hs]]; injection Hs as H0 H1 H2 H3;
    unfold light, get; rewrite H2, H3; split; reflexivity.
Qed.

(** ** Configuration *)

(** C8, as the code has it.  [initializeSystem] takes no configuration: it
    installs base 30, yellow 5, minimum 10 and maximum 60, and no operation
    writes these fields afterwards.  Every state the running program reaches
    therefore has a configuration with 0 < min <= base <= max. *)
Theorem run_config_valid (memory : TrafficSystem) (events : list Event) :
  config (fst (run memory events)) = (30, 5, 10, 60)
  /\ config_valid (fst (run memory events)).
Proof.
  destruct (Inv_run memory events) as [_ _ _ Hc].
  split; [exact Hc |].
  unfold config in Hc. injection Hc as Hg _ Hmin Hmax.
  unfold config_valid. rewrite Hg, Hmin, Hmax. lia.
Qed.

(** C8, as stated, fails: nothing checks the configuration.  Handed a struct
    whose limits violate the invariant, [controlLights] performs a phase
    change and [adjustTiming] writes durations below [minGreenTime]. *)
Lemma core_operates_on_invalid_config :
  ~ config_valid misconfigured
  /\ controlLights 100 (misconfigured, 0)
     = (with_durations (with_states misconfigured NS_GREEN) (fun _ => 20), 100).
Proof.
  split.
  - unfold config_valid, misconfigured.
    cbn [minGreenTime greenDuration maxGreenTime]. lia.
  - vm_compute. reflexivity.
Qed.

(** ** Facts for the phase transitions *)

Lemma findActiveGreen_states (s : TrafficSystem) :
  findActiveGreen s = firstGreen (states s).
Proof. reflexivity. Qed.

Lemma with_states_twice (s : TrafficSystem)
    (p q : LightState * LightState * LightState * LightState) :
  with_states (with_states s p) q = with_states s q.
Proof.
  destruct p as [[[? ?] ?] ?], q as [[[? ?] ?] ?].
  destruct_system s. reflexivity.
Qed.

Lemma updateSensors_frame (now : Z) (s : TrafficSystem) (dir : Direction)
    (detected : bool) :
  lights (updateSensors now s dir detected) = lights s
  /\ config (updateSensors now s dir detected) = config s
  /\ emergencyMode (updateSensors now s dir detected) = emergencyMode s.
Proof.
  unfold updateSensors. destruct_system s.
  destruct detected, dir; repeat split.
Qed.

Lemma states_of_lights (s t : TrafficSystem) :
  lights s = lights t -> states s = states t /\ durations s = durations t.
Proof. unfold states, durations, light. intros ->. split; reflexivity. Qed.

Lemma limit_lower (lo hi x : Z) : lo <= hi -> lo <= limit lo hi x.
Proof.
  unfold limit. intros H.
  destruct (x <? lo) eqn:E1.
  - destruct (hi <? lo) eqn:E2; lia.
  - destruct (hi <? x) eqn:E2; lia.
Qed.

Lemma emergency_stable (events : list Event) (c : Controller) :
  emergencyMode (fst c) = true ->
  states (fst c) = NS_GREEN ->
  forallb keeps_emergency events = true ->
  states (fst (fold_left step events c)) = NS_GREEN
  /\ durations (fst (fold_left step events c)) = durations (fst c)
  /\ snd (fold_left step events c) = snd c
  /\ emergencyMode (fst (fold_left step events c)) = true.
Proof.
  revert c. induction events as [| e events IH]; intros [s lc] He Hs Hk.
  - repeat split; assumption.
  - cbn [fold_left]. cbn [forallb] in Hk.
    apply andb_true_iff in Hk as [Hk1 Hk2]. cbn [fst snd] in *.
    assert (Hstep : emergencyMode (fst (step (s, lc) e)) = true
                    /\ states (fst (step (s, lc) e)) = NS_GREEN
                    /\ durations (fst (step (s, lc) e)) = durations s
                    /\ snd (step (s, lc) e) = lc).
    { destruct e as [now | now dir detected | on]; cbn [step fst snd].
      - rewrite controlLights_emergency by exact He. cbn [fst snd].
        destruct (with_states_view s NS_GREEN) as (V1 & V2 & _ & _ & V5).
        rewrite V5. repeat split; assumption.
      - destruct (updateSensors_frame now s dir detected) as (F1 & _ & F3).
        destruct (states_of_lights _ _ F1) as [G1 G2].
        rewrite G1, G2, F3. repeat split; assumption.
      - destruct on; [| discriminate Hk1].
        destruct_system s. repeat split; assumption. }
    destruct Hstep as (S1 & S2 & S3 & S4).
    destruct (IH (step (s, lc) e) S1 S2 Hk2) as (I1 & I2 & I3 & I4).
    rewrite I2, I3. repeat split; assumption.
Qed.

(** ** Emergency override *)

(** C4. With the emergency flag set, one call of [controlLights] makes North
    and South GREEN and East and West RED, whatever the lights showed before
    and whatever the clock and [lastChange] are; nothing else changes, and
    [lastChange] is kept.  As long as the flag stays set (ticks and sensor
    updates in any order), the lights stay in that configuration and neither
    the durations nor [lastChange] move: no elapsed-time transition occurs. *)
Theorem emergency_preempts (now lastChange : Z) (s : TrafficSystem)
    (events : list Event) :
  emergencyMode s = true ->
  forallb keeps_emergency events = true ->
  controlLights now (s, lastChange) = (with_states s NS_GREEN, lastChange)
  /\ states (fst (controlLights now (s, lastChange))) = NS_GREEN
  /\ (let c := fold_left step events (controlLights now (s, lastChange)) in
      states (fst c) = NS_GREEN
      /\ durations (fst c) = durations s
      /\ snd c = lastChange
      /\ emergencyMode (fst c) = true).
Proof.
  intros He Hk.
  rewrite controlLights_emergency by exact He. cbn [fst].
  destruct (with_states_view s NS_GREEN) as (V1 & V2 & _ & _ & V5).
  split; [reflexivity |]. split; [exact V1 |]. cbn zeta.
  rewrite He in V5.
  destruct (emergency_stable events (with_states s NS_GREEN, lastChange)
              V5 V1 Hk) as (I1 & I2 & I3 & I4).
  cbn [fst snd] in *. rewrite I2. repeat split; assumption.
Qed.

Lemma emergency_preempts_witness :
  emergencyMode preempted = true
  /\ forallb keeps_emergency [Sense 2 EAST true; Tick 3; Tick 99] = true
  /\ controlLights 1 (preempted, 0) = (with_states preempted NS_GREEN, 0)
  /\ states (fst (controlLights 1 (preempted, 0))) = NS_GREEN
  /\ (let c := fold_left step [Sense 2 EAST true; Tick 3; Tick 99]
                 (controlLights 1 (preempted, 0)) in
      states (fst c) = NS_GREEN
      /\ durations (fst c) = durations preempted
      /\ snd c = 0
      /\ emergencyMode (fst c) = true).
Proof.
  split; [reflexivity |]. split; [reflexivity |].
  apply (emergency_preempts 1 0 preempted); reflexivity.
Defined.




(** ** Leaving a yellow or green phase *)

(** C1, as the code behaves.  With North and South YELLOW (East and West
    RED, no emergency) the search loop finds no green light, so
    [activeGreen] is -1 and the branch commented "Switch to NORTH-SOUTH" is
    taken: North and South go back to GREEN and East and West stay RED.
    [adjustTiming] is run and [lastChange] is set to the current time. *)
Theorem controlLights_from_NS_YELLOW (now lastChange : Z) (s : TrafficSystem) :
  emergencyMode s = false ->
  states s = NS_YELLOW ->
  controlLights now (s, lastChange)
  = (adjustTiming (with_states s NS_GREEN), now)
  /\ states (fst (controlLights now (s, lastChange))) = NS_GREEN.
Proof.
  intros He Hs.
  assert (Hg : findActiveGreen s = None)
    by (rewrite findActiveGreen_states, Hs; reflexivity).
  rewrite controlLights_first_green by assumption.
  split; [reflexivity |]. cbn [fst].
  destruct (adjustTiming_frame (with_states s NS_GREEN)) as [F _].
  rewrite F. apply with_states_view.
Qed.

Lemma controlLights_from_NS_YELLOW_witness :
  emergencyMode (fst after_first_green) = false
  /\ states (fst after_first_green) = NS_YELLOW
  /\ controlLights 35 (fst after_first_green, 30)
     = (adjustTiming (with_states (fst after_first_green) NS_GREEN), 35)
  /\ states (fst (controlLights 35 (fst after_first_green, 30))) = NS_GREEN.
Proof.
  split; [vm_compute; reflexivity |].
  split; [vm_compute; reflexivity |].
  apply (controlLights_from_NS_YELLOW 35 30 (fst after_first_green));
    vm_compute; reflexivity.
Defined.

(** C3, as the code behaves.  With East and West GREEN (North and South RED,
    no emergency) and East's duration elapsed, [activeGreen] is EAST, and
    both writes of the "switch to yellow" block go to [lights[EAST]]: East
    turns YELLOW, West stays GREEN.  [lastChange] is set to the current
    time. *)
Theorem controlLights_from_EW_GREEN (now lastChange : Z) (s : TrafficSystem) :
  emergencyMode s = false ->
  states s = EW_GREEN ->
  duration (light s EAST) <= elapsed now lastChange ->
  controlLights now (s, lastChange) = (set_state s EAST YELLOW, now)
  /\ states (fst (controlLights now (s, lastChange)))
     = (RED, RED, YELLOW, GREEN).
Proof.
  intros He Hs Hle.
  assert (Hg : findActiveGreen s = Some EAST)
    by (rewrite findActiveGreen_states, Hs; reflexivity).
  rewrite (controlLights_to_yellow now lastChange s EAST) by assumption.
  cbn [Direction_eqb fst].
  unfold states, EW_GREEN, light in Hs. injection Hs as H0 H1 H2 H3.
  destruct_system s. cbn in H0, H1, H2, H3. subst.
  split; reflexivity.
Qed.

Lemma controlLights_from_EW_GREEN_witness :
  emergencyMode east_west_green = false
  /\ states east_west_green = EW_GREEN
  /\ duration (light east_west_green EAST) <= elapsed 30 0
  /\ controlLights 30 (east_west_green, 0)
     = (set_state east_west_green EAST YELLOW, 30)
  /\ states (fst (controlLights 30 (east_west_green, 0)))
     = (RED, RED, YELLOW, GREEN).
Proof.
  split; [vm_compute; reflexivity |].
  split; [vm_compute; reflexivity |].
  split; [vm_compute; discriminate |].
  apply (controlLights_from_EW_GREEN 30 0 east_west_green);
    [vm_compute; reflexivity | vm_compute; reflexivity
    | vm_compute; discriminate].
Defined.

(** ** Calling the controller twice at one instant *)

(** C7, as the code has it.  For a state whose limits satisfy
    0 < min <= max, a second call of [controlLights] at the same clock
    reading changes nothing, provided the first call is not a
    Green-to-Yellow switch (that is: the emergency flag is set, or no light
    is green, or the green light's duration has not elapsed). *)
Theorem controlLights_twice (now : Z) (c : Controller) :
  0 < minGreenTime (fst c) <= maxGreenTime (fst c) ->
  turns_yellow now c = false ->
  controlLights now (controlLights now c) = controlLights now c.
Proof.
  destruct c as [s lc]. unfold turns_yellow. cbn [fst snd]. intros Hcfg Hty.
  destruct (emergencyMode s) eqn:Em.
  - rewrite controlLights_emergency by exact Em.
    destruct (with_states_view s NS_GREEN) as (_ & _ & _ & _ & V5).
    rewrite controlLights_emergency by (rewrite V5; exact Em).
    rewrite with_states_twice. reflexivity.
  - cbn [negb andb] in Hty.
    destruct (findActiveGreen s) as [g |] eqn:Hg.
    + apply Z.leb_gt in Hty.
      rewrite (controlLights_hold now lc s g) by assumption.
      apply (controlLights_hold now lc s g); assumption.
    + rewrite controlLights_first_green by assumption.
      set (s1 := adjustTiming (with_states s NS_GREEN)).
      destruct (with_states_view s NS_GREEN) as (V1 & _ & _ & _ & V5).
      destruct (adjustTiming_frame (with_states s NS_GREEN))
        as (F1 & _ & _ & _ & _ & _ & F7).
      apply (controlLights_hold now now s1 NORTH).
      * subst s1. rewrite F7, V5. exact Em.
      * subst s1. rewrite findActiveGreen_states, F1, V1. reflexivity.
      * unfold elapsed. rewrite elapsed_same_instant.
        subst s1. rewrite light_adjustTiming. cbn [duration].
        apply Z.lt_le_trans with (minGreenTime s); [apply Hcfg |].
        apply (limit_lower (minGreenTime s) (maxGreenTime s)), Hcfg.
Qed.

Lemma controlLights_twice_witness :
  0 < minGreenTime (fst first_green) <= maxGreenTime (fst first_green)
  /\ turns_yellow 10 first_green = false
  /\ controlLights 10 (controlLights 10 first_green)
     = controlLights 10 first_green.
Proof.
  split; [vm_compute; split; [reflexivity | discriminate] |].
  split; [vm_compute; reflexivity |].
  apply (controlLights_twice 10 first_green).
  - vm_compute; split; [reflexivity | discriminate].
  - vm_compute; reflexivity.
Defined.

(** C7, as stated, fails.  Thirty seconds into the first green phase the
    first call turns North and South YELLOW; the second call, at the same
    clock reading, finds no green light and changes the lights again. *)
Lemma controlLights_twice_differs :
  controlLights 30 (controlLights 30 first_green)
  <> controlLights 30 first_green.
Proof. vm_compute. intros H. discriminate H. Qed.

(** With [minGreenTime] not positive the first green phase can be over at
    once: on the zeroed struct the second call turns North and South
    YELLOW. *)
Example controlLights_twice_needs_limits :
  states (fst (controlLights 0 (zeroed, 0))) = NS_GREEN
  /\ states (fst (controlLights 0 (controlLights 0 (zeroed, 0)))) = NS_YELLOW.
Proof. split; vm_compute; reflexivity. Qed.

(** * Further properties of the code *)

(** ** Start-up *)

(** X1. [initializeSystem] writes every field: its result does not depend on
    what the struct held.  Every light is RED with duration 0, every sensor
    is cleared with timestamp 0, the [direction] field of each light and
    sensor is its own index, the configuration is 30/5/10/60 and the
    emergency flag is off. *)
Theorem initializeSystem_overwrites (a b : TrafficSystem) :
  initializeSystem a = initializeSystem b
  /\ (forall d, light (initializeSystem a) d = mkTrafficLight RED 0 d)
  /\ (forall d, sensor (initializeSystem a) d = mkVehicleSensor false d 0)
  /\ config (initializeSystem a) = (30, 5, 10, 60)
  /\ emergencyMode (initializeSystem a) = false.
Proof.
  rewrite (initializeSystem_eq a), (initializeSystem_eq b).
  repeat split; intros d; destruct d; reflexivity.
Qed.

(** ** Density and timing *)

(** X2. The density of one pair of sensors exceeds that of another pair by
    more than 4 exactly when both sensors of the first pair detect a vehicle
    and neither sensor of the second pair does: one detecting sensor more is
    never enough to skew the timing. *)
Theorem density_skew (s : TrafficSystem) (p q r t : Direction) :
  (int_add (calculateDensity s r t) 4 <? calculateDensity s p q)
  = vehicleDetected (sensor s p) && vehicleDetected (sensor s q)
    && negb (vehicleDetected (sensor s r))
    && negb (vehicleDetected (sensor s t)).
Proof.
  unfold calculateDensity.
  destruct (vehicleDetected (sensor s p)), (vehicleDetected (sensor s q)),
    (vehicleDetected (sensor s r)), (vehicleDetected (sensor s t));
    reflexivity.
Qed.

Lemma adjustTiming_with_durations (s : TrafficSystem) (f : Direction -> Z) :
  adjustTiming (with_durations s f) = adjustTiming s.
Proof.
  rewrite !adjustTiming_eq. destruct_system s. reflexivity.
Qed.

(** X3. [adjustTiming] computes the durations afresh from the sensors and
    the configuration: the durations the lights held before do not matter,
    and running it a second time changes nothing. *)
Theorem adjustTiming_idempotent (s : TrafficSystem) (f : Direction -> Z) :
  adjustTiming (with_durations s f) = adjustTiming s
  /\ adjustTiming (adjustTiming s) = adjustTiming s.
Proof.
  split; [apply adjustTiming_with_durations |].
  rewrite (adjustTiming_eq s) at 1. apply adjustTiming_with_durations.
Qed.

(** X4. Whatever the configuration, also with the limits crossed or the
    additions wrapped, no duration left by [adjustTiming] exceeds
    [maxGreenTime]: the upper limit is applied last. *)
Theorem adjustTiming_upper_bound (s : TrafficSystem) (d : Direction) :
  duration (light (adjustTiming s) d) <= maxGreenTime s.
Proof.
  rewrite light_adjustTiming. cbn [duration]. unfold limit.
  destruct (assigned s d <? minGreenTime s).
  - destruct (maxGreenTime s <? minGreenTime s) eqn:E; lia.
  - destruct (maxGreenTime s <? assigned s d) eqn:E; lia.
Qed.

(** ** Sensors *)

(** X5. Updates of the sensors of two different directions commute. *)
Theorem updateSensors_commute (t1 t2 : Z) (s : TrafficSystem)
    (d1 d2 : Direction) (b1 b2 : bool) :
  d1 <> d2 ->
  updateSensors t2 (updateSensors t1 s d1 b1) d2 b2
  = updateSensors t1 (updateSensors t2 s d2 b2) d1 b1.
Proof.
  intros Hne. unfold updateSensors. destruct_system s.
  destruct d1, d2; try (exfalso; apply Hne; reflexivity);
    destruct b1, b2; reflexivity.
Qed.

Lemma updateSensors_commute_witness :
  NORTH <> EAST
  /\ updateSensors 9 (updateSensors 4 zeroed NORTH true) EAST false
     = updateSensors 4 (updateSensors 9 zeroed EAST false) NORTH true.
Proof.
  split; [discriminate |].
  apply (updateSensors_commute 4 9 zeroed NORTH EAST true false).
  discriminate.
Defined.

(** X6. After one round of the loop of [sensorThread] every sensor's flag
    says whether its [rand()] value was a multiple of 5, whatever the flag
    was before; a timestamp is replaced by the clock reading where the flag
    is now set and kept elsewhere; lights, configuration and emergency flag
    are untouched. *)
Theorem sensorThread_round_effect (rands nows : array4 Z) (s : TrafficSystem) :
  let s' := sensorThread_round rands nows s in
  (forall d,
      vehicleDetected (sensor s' d) = (Z.rem (get rands d) 5 =? 0)
      /\ detectionTime (sensor s' d)
         = (if Z.rem (get rands d) 5 =? 0 then get nows d
            else detectionTime (sensor s d))
      /\ sensorDirection (sensor s' d) = sensorDirection (sensor s d))
  /\ lights s' = lights s
  /\ config s' = config s
  /\ emergencyMode s' = emergencyMode s.
Proof.
  cbv zeta. unfold sensorThread_round, updateSensors.
  cbn [fold_left indices].
  destruct rands as [r0 r1 r2 r3], nows as [n0 n1 n2 n3].
  split; [intros d; destruct d |]; cbn [get elt0 elt1 elt2 elt3];
    destruct (Z.rem r0 5 =? 0), (Z.rem r1 5 =? 0), (Z.rem r2 5 =? 0),
      (Z.rem r3 5 =? 0);
    destruct_system s; repeat split; reflexivity.
Qed.

(** ** What one call of [controlLights] does and does not touch *)

Lemma wrap64_small (z : Z) : 0 <= z <= INT_MAX -> wrap 64 z = z.
Proof.
  unfold wrap, INT_MAX. intros Hz.
  change (2 ^ (64 - 1)) with 9223372036854775808.
  change (2 ^ 64) with 18446744073709551616.
  rewrite Z.mod_small; lia.
Qed.

Lemma elapsed_exact (now lastChange : Z) :
  0 <= now - lastChange <= INT_MAX ->
  elapsed now lastChange = now - lastChange.
Proof.
  intros H. unfold elapsed, time_sub, int_of_time.
  rewrite wrap64_small by exact H.
  apply wrap32_small. unfold INT_MIN, INT_MAX in *. lia.
Qed.

(** The cases of [controlLights], by the flag, the search loop and the
    elapsed time. *)
Lemma controlLights_cases (now lastChange : Z) (s : TrafficSystem) :
  (emergencyMode s = true
   /\ controlLights now (s, lastChange) = (with_states s NS_GREEN, lastChange))
  \/ (emergencyMode s = false /\ findActiveGreen s = None
      /\ controlLights now (s, lastChange)
         = (adjustTiming (with_states s NS_GREEN), now))
  \/ (exists g, emergencyMode s = false /\ findActiveGreen s = Some g
      /\ elapsed now lastChange < duration (light s g)
      /\ controlLights now (s, lastChange) = (s, lastChange))
  \/ (exists g, emergencyMode s = false /\ findActiveGreen s = Some g
      /\ duration (light s g) <= elapsed now lastChange
      /\ controlLights now (s, lastChange)
         = (set_state (set_state s g YELLOW)
              (if Direction_eqb g NORTH then SOUTH else g) YELLOW, now)).
Proof.
  destruct (emergencyMode s) eqn:Em.
  - left. split; [reflexivity | apply controlLights_emergency, Em].
  - right. destruct (findActiveGreen s) as [g |] eqn:Hg.
    + right.
      destruct (Z_lt_le_dec (elapsed now lastChange) (duration (light s g)))
        as [Hlt | Hle].
      * left. exists g. repeat split; try assumption.
        apply (controlLights_hold now lastChange s g); assumption.
      * right. exists g. repeat split; try assumption.
        apply (controlLights_to_yellow now lastChange s g); assumption.
    + left. repeat split.
      apply controlLights_first_green; assumption.
Qed.

Lemma set_state_frame (s : TrafficSystem) (i : Direction) (v : LightState) :
  sensors (set_state s i v) = sensors s
  /\ config (set_state s i v) = config s
  /\ emergencyMode (set_state s i v) = emergencyMode s
  /\ durations (set_state s i v) = durations s
  /\ forall d, direction (light (set_state s i v) d) = direction (light s d).
Proof.
  destruct_system s; destruct i; repeat split; intros d; destruct d;
    reflexivity.
Qed.

Lemma with_states_directions (s : TrafficSystem)
    (p : LightState * LightState * LightState * LightState) (d : Direction) :
  direction (light (with_states s p) d) = direction (light s d).
Proof.
  destruct p as [[[? ?] ?] ?]. destruct_system s; destruct d; reflexivity.
Qed.

(** X7. [controlLights] writes light states, durations and [lastChange]
    only: the sensors, the four configuration fields, the emergency flag and
    the [direction] field of every light are what they were. *)
Theorem controlLights_frame (now : Z) (c : Controller) :
  let c' := controlLights now c in
  sensors (fst c') = sensors (fst c)
  /\ config (fst c') = config (fst c)
  /\ emergencyMode (fst c') = emergencyMode (fst c)
  /\ forall d, direction (light (fst c') d) = direction (light (fst c) d).
Proof.
  destruct c as [s lc]. cbv zeta. cbn [fst].
  destruct (with_states_view s NS_GREEN) as (_ & _ & Vc & Vs & Ve).
  destruct (adjustTiming_frame (with_states s NS_GREEN))
    as (_ & Fs & Fg & Fy & Fmin & Fmax & Fe).
  destruct (controlLights_cases now lc s)
    as [[_ ->] | [(_ & _ & ->) | [(g & _ & _ & _ & ->) | (g & _ & _ & _ & ->)]]];
    cbn [fst].
  - split; [exact Vs |]. split; [exact Vc |]. split; [exact Ve |].
    intros d. apply with_states_directions.
  - split; [exact (eq_trans Fs Vs) |].
    split; [unfold config in *; rewrite Fg, Fy, Fmin, Fmax; exact Vc |].
    split; [exact (eq_trans Fe Ve) |].
    intros d. rewrite light_adjustTiming. cbn [direction].
    apply with_states_directions.
  - repeat split.
  - destruct (set_state_frame s g YELLOW) as (A1 & A2 & A3 & _ & A5).
    destruct (set_state_frame (set_state s g YELLOW)
                (if Direction_eqb g NORTH then SOUTH else g) YELLOW)
      as (B1 & B2 & B3 & _ & B5).
    split; [exact (eq_trans B1 A1) |].
    split; [exact (eq_trans B2 A2) |].
    split; [exact (eq_trans B3 A3) |].
    intros d. rewrite B5. apply A5.
Qed.

(** X8. While the emergency flag is set, [controlLights] never moves
    [lastChange].  With the flag off, a call either leaves the struct and
    [lastChange] exactly as they were or sets [lastChange] to the current
    clock reading: no light changes without the change being time-stamped. *)
Theorem controlLights_stamp (now lastChange : Z) (s : TrafficSystem) :
  let c' := controlLights now (s, lastChange) in
  if emergencyMode s then snd c' = lastChange
  else c' = (s, lastChange) \/ snd c' = now.
Proof.
  cbv zeta.
  destruct (controlLights_cases now lastChange s)
    as [[E ->] | [(E & _ & ->) | [(g & E & _ & _ & ->) | (g & E & _ & _ & ->)]]];
    rewrite E; cbn [snd]; auto.
Qed.

Lemma adjustTiming_set_yellowDuration (s : TrafficSystem) (y : Z) :
  adjustTiming (set_yellowDuration s y) = set_yellowDuration (adjustTiming s) y.
Proof. rewrite !adjustTiming_eq. destruct_system s. reflexivity. Qed.

(** X9. The configured yellow time is never read: with any other value in
    [yellowDuration], [adjustTiming] and [controlLights] leave the same
    lights, sensors, limits, flag and [lastChange]. *)
Theorem yellowDuration_unused (now lastChange y : Z) (s : TrafficSystem) :
  adjustTiming (set_yellowDuration s y) = set_yellowDuration (adjustTiming s) y
  /\ controlLights now (set_yellowDuration s y, lastChange)
     = (set_yellowDuration (fst (controlLights now (s, lastChange))) y,
        snd (controlLights now (s, lastChange))).
Proof.
  split; [apply adjustTiming_set_yellowDuration |].
  destruct (controlLights_cases now lastChange s)
    as [[E ->] | [(E & G & ->) | [(g & E & G & L & ->) | (g & E & G & L & ->)]]];
    cbn [fst snd].
  - rewrite controlLights_emergency by exact E.
    destruct_system s. reflexivity.
  - rewrite controlLights_first_green by assumption.
    rewrite <- adjustTiming_set_yellowDuration.
    destruct_system s. reflexivity.
  - apply (controlLights_hold now lastChange (set_yellowDuration s y) g);
      assumption.
  - rewrite (controlLights_to_yellow now lastChange (set_yellowDuration s y) g)
      by assumption.
    destruct_system s; destruct g; reflexivity.
Qed.

(** ** Phase changes *)

Lemma with_states_durations (s : TrafficSystem)
    (p : LightState * LightState * LightState * LightState) :
  durations (adjustTiming (with_states s p)) = durations (adjustTiming s).
Proof.
  rewrite !adjustTiming_eq. destruct p as [[[? ?] ?] ?].
  destruct_system s. reflexivity.
Qed.

(** X10. When the emergency flag is off and no light is GREEN (all red at
    start-up, or either axis yellow), a call of [controlLights] turns North
    and South GREEN and East and West RED whatever the elapsed time, leaves
    in the lights the durations [adjustTiming] computes from the current
    sensors, and sets [lastChange] to the clock reading. *)
Theorem controlLights_no_green (now lastChange : Z) (s : TrafficSystem) :
  emergencyMode s = false ->
  (forall d, state (light s d) <> GREEN) ->
  let c' := controlLights now (s, lastChange) in
  states (fst c') = NS_GREEN
  /\ durations (fst c') = durations (adjustTiming s)
  /\ snd c' = now.
Proof.
  intros Em Hng. cbv zeta.
  assert (Hg : findActiveGreen s = None).
  { unfold findActiveGreen. cbn [find indices].
    pose proof (Hng NORTH). pose proof (Hng SOUTH).
    pose proof (Hng EAST). pose proof (Hng WEST).
    destruct (state (light s NORTH)), (state (light s SOUTH)),
      (state (light s EAST)), (state (light s WEST));
      try reflexivity; congruence. }
  rewrite controlLights_first_green by assumption. cbn [fst snd].
  destruct (adjustTiming_frame (with_states s NS_GREEN)) as [F _].
  destruct (with_states_view s NS_GREEN) as [V _].
  split; [exact (eq_trans F V) |].
  split; [apply with_states_durations | reflexivity].
Qed.

Lemma controlLights_no_green_witness :
  emergencyMode east_west_yellow = false
  /\ (forall d, state (light east_west_yellow d) <> GREEN)
  /\ (let c' := controlLights 1 (east_west_yellow, 0) in
      states (fst c') = NS_GREEN
      /\ durations (fst c') = durations (adjustTiming east_west_yellow)
      /\ snd c' = 1).
Proof.
  split; [vm_compute; reflexivity |].
  split; [intros d; destruct d; vm_compute; discriminate |].
  apply (controlLights_no_green 1 0 east_west_yellow).
  - vm_compute; reflexivity.
  - intros d; destruct d; vm_compute; discriminate.
Defined.

(** X11. The North/South green phase in clock time.  With North and South
    GREEN, East and West RED, the flag off and the clock between 0 and
    INT_MAX seconds past [lastChange]: before North's duration has passed a
    call changes nothing; from then on it turns North and South YELLOW,
    leaves East and West RED and sets [lastChange] to the clock reading. *)
Theorem green_phase_timing (now lastChange : Z) (s : TrafficSystem) :
  emergencyMode s = false ->
  states s = NS_GREEN ->
  0 <= now - lastChange <= INT_MAX ->
  controlLights now (s, lastChange)
  = if now - lastChange <? duration (light s NORTH)
    then (s, lastChange)
    else (with_states s NS_YELLOW, now).
Proof.
  intros Em Hs Ht.
  assert (Hg : findActiveGreen s = Some NORTH)
    by (rewrite findActiveGreen_states, Hs; reflexivity).
  pose proof (elapsed_exact now lastChange Ht) as He.
  destruct (now - lastChange <? duration (light s NORTH)) eqn:E.
  - apply Z.ltb_lt in E.
    apply (controlLights_hold now lastChange s NORTH); try assumption.
    rewrite He. exact E.
  - apply Z.ltb_ge in E.
    rewrite (controlLights_to_yellow now lastChange s NORTH);
      [| exact Em | exact Hg | rewrite He; exact E].
    cbn [Direction_eqb].
    unfold states, NS_GREEN, light in Hs. injection Hs as H0 H1 H2 H3.
    destruct_system s. cbn in H0, H1, H2, H3. subst. reflexivity.
Qed.

Lemma green_phase_timing_witness :
  emergencyMode (fst first_green) = false
  /\ states (fst first_green) = NS_GREEN
  /\ 0 <= 29 - 0 <= INT_MAX
  /\ controlLights 29 (fst first_green, 0)
     = if 29 - 0 <? duration (light (fst first_green) NORTH)
       then (fst first_green, 0)
       else (with_states (fst first_green) NS_YELLOW, 29).
Proof.
  split; [vm_compute; reflexivity |].
  split; [vm_compute; reflexivity |].
  split; [unfold INT_MAX; lia |].
  apply (green_phase_timing 29 0 (fst first_green));
    [vm_compute; reflexivity | vm_compute; reflexivity
    | unfold INT_MAX; lia].
Defined.

(** ** Durations while the program runs *)

Lemma adjustTiming_default_durations (s : TrafficSystem) :
  config s = (30, 5, 10, 60) ->
  In (durations (adjustTiming s)) program_durations.
Proof.
  unfold config. intros Hc. injection Hc as Hg _ Hmin Hmax.
  unfold durations. rewrite !light_adjustTiming. cbn [duration].
  rewrite Hmin, Hmax. unfold assigned. rewrite Hg.
  unfold calculateDensity.
  destruct (vehicleDetected (sensor s NORTH)),
    (vehicleDetected (sensor s SOUTH)),
    (vehicleDetected (sensor s EAST)),
    (vehicleDetected (sensor s WEST)); vm_compute; tauto.
Qed.

Lemma controlLights_durations (now : Z) (c : Controller) :
  durations (fst (controlLights now c)) = durations (fst c)
  \/ durations (fst (controlLights now c)) = durations (adjustTiming (fst c)).
Proof.
  destruct c as [s lc]. cbn [fst].
  destruct (controlLights_cases now lc s)
    as [[_ ->] | [(_ & _ & ->) | [(g & _ & _ & _ & ->) | (g & _ & _ & _ & ->)]]];
    cbn [fst].
  - left. apply with_states_view.
  - right. apply with_states_durations.
  - left. reflexivity.
  - left.
    destruct (set_state_frame s g YELLOW) as (_ & _ & _ & A & _).
    destruct (set_state_frame (set_state s g YELLOW)
                (if Direction_eqb g NORTH then SOUTH else g) YELLOW)
      as (_ & _ & _ & B & _).
    exact (eq_trans B A).
Qed.

Lemma run_snoc (memory : TrafficSystem) (events : list Event) (e : Event) :
  run memory (events ++ [e]) = step (run memory events) e.
Proof. unfold run. rewrite fold_left_app. reflexivity. Qed.

(** X12. While the program runs, under any sequence of ticks, sensor
    updates and writes of the emergency flag, the four durations are
    always one of: all 0 (before the first phase change), all 30, 45 for
    North/South with 20 for East/West, or 20 for North/South with 45 for
    East/West. *)
Theorem run_durations (memory : TrafficSystem) (events : list Event) :
  In (durations (fst (run memory events))) program_durations.
Proof.
  induction events as [| e events IH] using rev_ind.
  - left. reflexivity.
  - rewrite run_snoc.
    pose proof (Inv_run memory events) as [_ _ _ Hc].
    destruct e as [now | now dir detected | on]; cbn [step fst].
    + destruct (controlLights_durations now (run memory events)) as [-> | ->].
      * exact IH.
      * apply adjustTiming_default_durations, Hc.
    + destruct (updateSensors_frame now (fst (run memory events)) dir detected)
        as (F & _ & _).
      destruct (states_of_lights _ _ F) as [_ ->]. exact IH.
    + exact IH.
Qed.

(** ** The program as [main] and [sensorThread] run it *)

Lemma controlLights_emergencyMode (now : Z) (c : Controller) :
  emergencyMode (fst (controlLights now c)) = emergencyMode (fst c).
Proof.
  destruct c as [s lc]. cbn [fst].
  destruct (controlLights_cases now lc s)
    as [[_ ->] | [(_ & _ & ->) | [(g & _ & _ & _ & ->) | (g & _ & _ & _ & ->)]]];
    cbn [fst].
  - apply with_states_view.
  - destruct (adjustTiming_frame (with_states s NS_GREEN))
      as (_ & _ & _ & _ & _ & _ & F).
    rewrite F. apply with_states_view.
  - reflexivity.
  - destruct_system s; destruct g; reflexivity.
Qed.

Lemma sensor_thread_updates (rounds : list (array4 Z * array4 Z)) :
  forallb is_Update (sensor_thread rounds) = true.
Proof.
  induction rounds as [| [rands nows] rounds IH]; [reflexivity |].
  cbn [sensor_thread flat_map]. rewrite forallb_app.
  fold (sensor_thread rounds). rewrite IH. reflexivity.
Qed.

Lemma main_thread_cons (now r : Z) (passes : list (Z * Z)) :
  main_thread ((now, r) :: passes)
  = Control now :: Display
      :: (if Z.rem r 20 =? 0 then [Raise; Clear] else [])
      ++ main_thread passes.
Proof. reflexivity. Qed.

Lemma Pending_step (flag : bool) (x : Action) (a : list Action)
    (c : Controller) :
  Pending flag (x :: a) ->
  emergencyMode (fst c) = flag ->
  is_Update x = false
  /\ match x with
     | Control _ | Display => flag = false
     | _ => True
     end
  /\ Pending (emergencyMode (fst (next c x))) a.
Proof.
  intros HP Hc. remember (x :: a) as xa eqn:Hxa.
  destruct HP as [passes | r passes | passes | passes].
  - destruct passes as [| [now r] passes]; [discriminate Hxa |].
    rewrite main_thread_cons in Hxa. injection Hxa as <- <-.
    repeat split. cbn [next]. rewrite controlLights_emergencyMode, Hc.
    apply Pending_display.
  - injection Hxa as <- <-. repeat split. cbn [next]. rewrite Hc.
    destruct (Z.rem r 20 =? 0); [apply Pending_raise | apply Pending_pass].
  - injection Hxa as <- <-. repeat split. apply Pending_clear.
  - injection Hxa as <- <-. repeat split. apply Pending_pass.
Qed.

Lemma Pending_done (flag : bool) : Pending flag [] -> flag = false.
Proof.
  intros HP. remember [] as e eqn:He.
  destruct HP; try discriminate He; reflexivity.
Qed.

Lemma calm_Interleaving (a b l : list Action) :
  Interleaving a b l ->
  forallb is_Update b = true ->
  forall c : Controller,
    Pending (emergencyMode (fst c)) a ->
    calm c l = true /\ emergencyMode (fst (execute c l)) = false.
Proof.
  induction 1 as [| x a b l HI IH | x a b l HI IH]; intros Hb c HP.
  - split; [reflexivity |]. apply Pending_done, HP.
  - destruct (Pending_step _ x a c HP eq_refl) as (_ & Hx & HP').
    destruct (IH Hb (next c x) HP') as [IH1 IH2].
    split; [| exact IH2].
    cbn [calm]. rewrite IH1.
    destruct x; try reflexivity; rewrite Hx; reflexivity.
  - cbn [forallb] in Hb. apply andb_true_iff in Hb as [Hx Hb].
    destruct x as [| | | | now dir detected]; try discriminate Hx.
    assert (HP' : Pending (emergencyMode (fst (next c (Update now dir detected)))) a).
    { cbn [next fst].
      destruct (updateSensors_frame now (fst c) dir detected) as (_ & _ & ->).
      exact HP. }
    destruct (IH Hb _ HP') as [IH1 IH2].
    split; [| exact IH2]. cbn [calm]. exact IH1.
Qed.

(** X13. In the program as written no call of [controlLights] or
    [displayStatus] ever finds the emergency flag set: [main] sets and
    clears it between two calls and [sensorThread] does not write it.  This
    holds for any number of passes of the loop of [main] and rounds of
    [sensorThread], any [rand()] values and clock readings, and any
    interleaving of the two threads' steps; once all these steps have run
    the flag is off. *)
Theorem main_loop_calm (memory : TrafficSystem) (passes : list (Z * Z))
    (rounds : list (array4 Z * array4 Z)) (l : list Action) :
  Interleaving (main_thread passes) (sensor_thread rounds) l ->
  calm (boot memory) l = true
  /\ emergencyMode (fst (execute (boot memory) l)) = false.
Proof.
  intros HI.
  apply (calm_Interleaving _ _ _ HI (sensor_thread_updates rounds)).
  apply Pending_pass.
Qed.

Lemma sample_trace_Interleaving :
  Interleaving (main_thread two_passes) (sensor_thread one_round) sample_trace.
Proof.
  cbv.
  repeat (apply Interleaving_left || apply Interleaving_right
          || apply Interleaving_nil).
Defined.

Lemma main_loop_calm_witness :
  Interleaving (main_thread two_passes) (sensor_thread one_round) sample_trace
  /\ calm (boot zeroed) sample_trace = true
  /\ emergencyMode (fst (execute (boot zeroed) sample_trace)) = false.
Proof.
  split; [exact sample_trace_Interleaving |].
  apply (main_loop_calm zeroed two_passes one_round sample_trace).
  exact sample_trace_Interleaving.
Defined.

Lemma emit_unalarmed (c : Controller) (a : Action) :
  match a with
  | Control _ | Display => emergencyMode (fst c) = false
  | _ => True
  end ->
  Forall unalarmed (emit c a).
Proof.
  destruct a as [now | | | | now dir detected]; cbn [emit]; intros H.
  - unfold controlLights_printf. rewrite H. constructor.
  - unfold displayStatus. rewrite H.
    repeat constructor; cbn [format arguments];
      try (intros E; discriminate E); reflexivity.
  - repeat constructor; cbn [format arguments]; intros E; discriminate E.
  - constructor.
  - constructor.
Qed.

Lemma calm_stdout (l : list Action) (c : Controller) :
  calm c l = true -> Forall unalarmed (stdout c l).
Proof.
  revert c. induction l as [| a l IH]; intros c H; [constructor |].
  cbn [calm] in H. apply andb_true_iff in H as [Ha Hl].
  cbn [stdout]. apply Forall_app. split; [| apply IH, Hl].
  apply emit_unalarmed.
  destruct a; try exact I; apply negb_true_iff, Ha.
Qed.

(** X14. What the program prints: under the conditions of X13 the notice
    of the emergency branch of [controlLights] never appears on the console,
    and every status block of [displayStatus] reports the emergency mode as
    OFF. *)
Theorem main_loop_output (memory : TrafficSystem) (passes : list (Z * Z))
    (rounds : list (array4 Z * array4 Z)) (l : list Action) :
  Interleaving (main_thread passes) (sensor_thread rounds) l ->
  ~ In emergencyNotice (stdout (boot memory) l)
  /\ forall p, In p (stdout (boot memory) l) ->
               format p = "Emergency Mode: %s\n"%string ->
               arguments p = [Str "OFF"].
Proof.
  intros HI.
  destruct (calm_Interleaving _ _ _ HI (sensor_thread_updates rounds)
              (boot memory) (Pending_pass passes)) as [Hc _].
  pose proof (calm_stdout l (boot memory) Hc) as HF.
  rewrite Forall_forall in HF. split.
  - intros Hin. destruct (HF _ Hin) as [Hne _]. apply Hne. reflexivity.
  - intros p Hin. apply (HF p Hin).
Qed.

Lemma main_loop_output_witness :
  Interleaving (main_thread two_passes) (sensor_thread one_round) sample_trace
  /\ ~ In emergencyNotice (stdout (boot zeroed) sample_trace)
  /\ forall p, In p (stdout (boot zeroed) sample_trace) ->
               format p = "Emergency Mode: %s\n"%string ->
               arguments p = [Str "OFF"].
Proof.
  split; [exact sample_trace_Interleaving |].
  apply (main_loop_output zeroed two_passes one_round sample_trace).
  exact sample_trace_Interleaving.
Defined.

(** ** The status display *)

Lemma stateName_inj (a b : LightState) : stateName a = stateName b -> a = b.
Proof. destruct a, b; intros H; try reflexivity; discriminate H. Qed.

(** X15. [displayStatus] prints the same for two systems exactly when they
    agree on the four light states, on the durations of North and of East,
    and on the emergency flag.  The durations of South and West, the
    sensors and the configuration are not shown. *)
Theorem displayStatus_shows (s t : TrafficSystem) :
  displayStatus s = displayStatus t
  <-> states s = states t
      /\ duration (light s NORTH) = duration (light t NORTH)
      /\ duration (light s EAST) = duration (light t EAST)
      /\ emergencyMode s = emergencyMode t.
Proof.
  unfold displayStatus, states, light. cbn [get]. split.
  - intros H. injection H as Hn Hs He Hw Hdn Hde Hem.
    apply stateName_inj in Hn, Hs, He, Hw.
    rewrite Hn, Hs, He, Hw. repeat split; try assumption.
    destruct (emergencyMode s), (emergencyMode t);
      try reflexivity; discriminate Hem.
  - intros (Hst & Hdn & Hde & Hem). injection Hst as Hn Hs He Hw.
    rewrite Hn, Hs, He, Hw, Hdn, Hde, Hem. reflexivity.
Qed.

(** ** Light configurations while the program runs *)

(** X16. Under any sequence of ticks, sensor updates and writes of the
    emergency flag, the lights show one of three configurations: all RED,
    North/South GREEN with East/West RED, or North/South YELLOW with
    East/West RED.  East and West are never GREEN and never YELLOW. *)
Theorem run_light_states (memory : TrafficSystem) (events : list Event) :
  In (states (fst (run memory events))) [ALL_RED; NS_GREEN; NS_YELLOW].
Proof.
  destruct (Inv_run memory events) as [Hs _ _ _].
  destruct Hs as [-> | [-> | ->]]; cbn [In]; auto.
Qed.

(** ** The emergency code in the program as written *)

Lemma lower_off (c : Controller) :
  emergencyMode (fst c) = false -> lower c = c.
Proof.
  destruct c as [s lc]. unfold lower. cbn [fst snd]. intros H.
  destruct_system s. cbn in H. subst. reflexivity.
Qed.

Lemma lower_next_Update (c : Controller) (now : Z) (dir : Direction)
    (detected : bool) :
  next (lower c) (Update now dir detected)
  = lower (next c (Update now dir detected)).
Proof.
  destruct c as [s lc]. unfold lower, next, updateSensors. cbn [fst snd].
  destruct_system s; destruct detected, dir; reflexivity.
Qed.

Lemma inert_Interleaving (a b l : list Action) :
  Interleaving a b l ->
  forallb is_Update b = true ->
  forall c : Controller,
    Pending (emergencyMode (fst c)) a ->
    execute (lower c) (without_emergency l) = lower (execute c l).
Proof.
  induction 1 as [| x a b l HI IH | x a b l HI IH]; intros Hb c HP.
  - reflexivity.
  - destruct (Pending_step _ x a c HP eq_refl) as (_ & Hx & HP').
    specialize (IH Hb (next c x) HP').
    unfold without_emergency, execute in *. cbn [filter fold_left].
    destruct x as [now | | | | now dir detected]; cbn [is_flag_write negb].
    + cbn [fold_left]. rewrite <- IH.
      rewrite (lower_off c Hx).
      rewrite (lower_off (next c (Control now)))
        by (cbn [next]; rewrite controlLights_emergencyMode; exact Hx).
      reflexivity.
    + cbn [fold_left]. rewrite <- IH. reflexivity.
    + rewrite <- IH. reflexivity.
    + rewrite <- IH. reflexivity.
    + cbn [fold_left]. rewrite <- IH, lower_next_Update. reflexivity.
  - cbn [forallb] in Hb. apply andb_true_iff in Hb as [Hx Hb].
    destruct x as [| | | | now dir detected]; try discriminate Hx.
    assert (HP' : Pending (emergencyMode (fst (next c (Update now dir detected)))) a).
    { cbn [next fst].
      destruct (updateSensors_frame now (fst c) dir detected) as (_ & _ & ->).
      exact HP. }
    specialize (IH Hb _ HP').
    unfold without_emergency, execute in *.
    cbn [filter is_flag_write negb fold_left].
    rewrite <- IH, lower_next_Update. reflexivity.
Qed.

(** X17. In the program as written the emergency code changes nothing:
    under the conditions of X13 the struct and [lastChange] reached are
    exactly those reached when the two writes of the emergency flag are left
    out of every pass of [main]. *)
Theorem emergency_inert (memory : TrafficSystem) (passes : list (Z * Z))
    (rounds : list (array4 Z * array4 Z)) (l : list Action) :
  Interleaving (main_thread passes) (sensor_thread rounds) l ->
  execute (boot memory) l = execute (boot memory) (without_emergency l).
Proof.
  intros HI.
  pose proof (sensor_thread_updates rounds) as Hb.
  destruct (calm_Interleaving _ _ _ HI Hb (boot memory) (Pending_pass passes))
    as [_ Hoff].
  pose proof (inert_Interleaving _ _ _ HI Hb (boot memory)
                (Pending_pass passes)) as H.
  rewrite (lower_off (boot memory)) in H by reflexivity.
  rewrite (lower_off _ Hoff) in H. symmetry. exact H.
Qed.

Lemma emergency_inert_witness :
  Interleaving (main_thread two_passes) (sensor_thread one_round) sample_trace
  /\ execute (boot zeroed) sample_trace
     = execute (boot zeroed) (without_emergency sample_trace).
Proof.
  split; [exact sample_trace_Interleaving |].
  apply (emergency_inert zeroed two_passes one_round sample_trace).
  exact sample_trace_Interleaving.
Defined.

(** ** Repeated readings of one sensor *)

(** X18. The timestamp of a sensor is that of its last positive reading: a
    positive reading replaces whatever earlier readings of that direction
    left, including their timestamp; a negative reading after a positive
    one clears the flag and keeps the timestamp of the positive one. *)
Theorem updateSensors_last_seen (t1 t2 : Z) (s : TrafficSystem)
    (d : Direction) (b : bool) :
  updateSensors t2 (updateSensors t1 s d b) d true = updateSensors t2 s d true
  /\ sensor (updateSensors t2 (updateSensors t1 s d true) d false) d
     = mkVehicleSensor false (sensorDirection (sensor s d)) t1.
Proof.
  unfold updateSensors. destruct_system s.
  destruct b, d; split; reflexivity.
Qed.
